(** * ptr-notes: vectors of raw and unique pointers to polymorphic elements

    A shallow embedding of [ptr-notes.cpp].  The program keeps drawing
    elements (points, lines, rectangles) behind pointers, in two vectors of a
    [Drawing]: one of raw pointers and one of [std::unique_ptr]s.  The
    embedding has

    - the three concrete classes as one closed type, with [render] producing
      the line each class writes to [std::cout];
    - a memory of objects, so that raw pointers can be null, live or
      dangling;
    - the member functions of [Drawing] as computations over the memory, the
      text written so far and the two vectors, which either finish or run into
      undefined behaviour.

    The destructor of [DrawingElement] is not virtual, and every object is a
    [Point], a [Line] or a [Rectangle]: a [delete] through a
    [DrawingElement*], also the one a [std::unique_ptr<DrawingElement>] does,
    is undefined whenever the pointer is not null. *)

From stdpp Require Import base option list gmap strings pretty.
From Stdlib Require Import ZArith Ascii.

Local Open Scope Z_scope.
Local Open Scope string_scope.
Local Open Scope list_scope.

(** ** Drawing elements *)

(** The concrete subclasses of the abstract class [DrawingElement].  Their
    fields are C++ [int]s; no arithmetic is done on them, they are only
    printed. *)
Inductive DrawingElement : Type :=
| Point (_x _y : Z)
| Line (_x1 _y1 _x2 _y2 : Z)
| Rectangle (_x _y _w _h : Z).

Global Instance DrawingElement_eq_dec : EqDecision DrawingElement.
Proof. solve_decision. Defined.

(** [operator<<] on an [int] and on a [size_t]: decimal digits, with a minus
    sign for a negative number. *)
Definition show_int (z : Z) : string := pretty z.
Definition show_size (n : nat) : string := pretty n.

(** The virtual member function [render].  Every override writes one line
    ending in [std::endl]; the line is returned here without the newline. *)
Definition render (e : DrawingElement) : string :=
  match e with
  | Point _x _y =>
      "Rendering a point (" +:+ show_int _x +:+ ", " +:+ show_int _y +:+ ")"
  | Line _x1 _y1 _x2 _y2 =>
      "Rendering a line from (" +:+ show_int _x1 +:+ ", " +:+ show_int _y1
        +:+ ") to (" +:+ show_int _x2 +:+ ", " +:+ show_int _y2 +:+ ")"
  | Rectangle _x _y _w _h =>
      "Rendering a rectangle of dimension " +:+ show_int _w +:+ "x"
        +:+ show_int _h +:+ ", from (" +:+ show_int _x +:+ ", "
        +:+ show_int _y +:+ ")"
  end.

(** The characters [operator<<] writes for an [int]: the ten digits and the
    minus sign. *)
Definition numeral_char (c : Ascii.ascii) : bool :=
  bool_decide (c ∈ ["0"; "1"; "2"; "3"; "4"; "5"; "6"; "7"; "8"; "9"; "-"]%char).

Fixpoint numeral (s : string) : bool :=
  match s with
  | EmptyString => true
  | String c s' => numeral_char c && numeral s'
  end.

(** ** Memory *)

Definition addr : Type := positive.

(** How an object came to be: a local variable, or a [new] expression. *)
Inductive storage : Type := Automatic | Dynamic.

Global Instance storage_eq_dec : EqDecision storage.
Proof. solve_decision. Defined.

Record object : Type := Object { obj_storage : storage; obj_value : DrawingElement }.

Global Instance object_eq_dec : EqDecision object.
Proof. solve_decision. Defined.

(** The live objects.  An address that is not in the map holds no object: it
    was never handed out, or its object has been destroyed. *)
Abbreviation memory := (gmap addr object).

(** [DrawingElement*]: null, or an address (of a live object or not). *)
Definition ptr : Type := option addr.
Abbreviation nullptr := (@None addr).

(** [std::unique_ptr<DrawingElement>]: the pointer it holds. *)
Definition unique_ptr : Type := option addr.

(** ** Computations *)

Inductive hazard : Type :=
| NullDereference      (* [->] on a null pointer *)
| DanglingDereference  (* [->] on a pointer to no live object *)
| InvalidDelete.       (* [delete] of an object of a derived class through
                          [DrawingElement*], of what no [new] returned, or
                          twice *)

Inductive outcome (A : Type) : Type :=
| Done (a : A)
| Undefined (h : hazard).
Global Arguments Done {A} a.
Global Arguments Undefined {A} h.

(** The data members of [Drawing].  The member [_drawing], a vector of
    [DrawingElement] values, can hold nothing (the class is abstract) and is
    left out. *)
Record Drawing : Type := MkDrawing {
  _drawing_ptrs : list ptr;
  _drawing_u_ptrs : list unique_ptr
}.

Record state : Type := State {
  mem : memory;
  cout : list string;   (* the lines written, oldest first *)
  this : Drawing
}.

Definition M (A : Type) : Type := state → outcome (A * state).

Global Instance M_ret : MRet M := λ A a s, Done (a, s).
Global Instance M_bind : MBind M := λ A B f m s,
  match m s with
  | Done (a, s') => f a s'
  | Undefined h => Undefined h
  end.

Definition undefined {A} (h : hazard) : M A := λ _, Undefined h.

(** Run a computation for its final state. *)
Definition exec {A} (m : M A) (s : state) : outcome state :=
  match m s with
  | Done (_, s') => Done s'
  | Undefined h => Undefined h
  end.

Fixpoint for_each {A} (body : A → M unit) (l : list A) : M unit :=
  match l with
  | [] => mret tt
  | x :: l' => body x ;; for_each body l'
  end.

(** The line written by [std::cout << std::endl] alone. *)
Abbreviation blank_line := EmptyString.

(** [std::cout << line << std::endl] *)
Definition endl (line : string) : M unit := λ s,
  Done (tt, State (mem s) (cout s ++ [line]) (this s)).

Definition get_ptrs : M (list ptr) := λ s, Done (_drawing_ptrs (this s), s).
Definition get_u_ptrs : M (list unique_ptr) := λ s, Done (_drawing_u_ptrs (this s), s).
Definition set_ptrs (l : list ptr) : M unit := λ s,
  Done (tt, State (mem s) (cout s) (MkDrawing l (_drawing_u_ptrs (this s)))).
Definition set_u_ptrs (l : list unique_ptr) : M unit := λ s,
  Done (tt, State (mem s) (cout s) (MkDrawing (_drawing_ptrs (this s)) l)).

(** [a->render()] for a non-null address. *)
Definition call_render (a : addr) : M unit := λ s,
  match mem s !! a with
  | Some o => endl (render (obj_value o)) s
  | None => Undefined DanglingDereference
  end.

(** [delete p] for [p] of type [DrawingElement*].  On a null pointer it does
    nothing.  Any other pointer leads to an object of a derived class, or to
    none: [~DrawingElement()] is not virtual, so there is no object that may
    be deleted through this type. *)
Definition delete_ptr (p : ptr) : M unit := λ s,
  match p with
  | None => Done (tt, s)
  | Some a => Undefined InvalidDelete
  end.

(** Storage for a local variable ends when its scope is left. *)
Definition leave (a : addr) : M unit := λ s,
  Done (tt, State (delete a (mem s)) (cout s) (this s)).

(** *** [std::unique_ptr] *)

(** Move construction: the new pointer takes what the source held, and the
    source is left null.  The result is (new pointer, source afterwards).
    There is no copy construction. *)
Definition move (src : unique_ptr) : unique_ptr * unique_ptr := (src, nullptr).

(** The destructor applies [delete] to the pointer it still holds, as a
    [DrawingElement*]. *)
Definition destroy_u_ptr (h : unique_ptr) : M unit := delete_ptr h.

(** [h->render()] *)
Definition arrow_render (h : unique_ptr) : M unit :=
  match h with
  | None => undefined NullDereference
  | Some a => call_render a
  end.

(** ** The member functions of [Drawing] *)

Definition add_element_ptr (element_ptr : ptr) : M unit :=
  l ← get_ptrs; set_ptrs (l ++ [element_ptr]).

(** [_drawing_u_ptrs.emplace_back(std::move(src))], and the same with a
    temporary for [src]: the new element of the vector is move-constructed
    from [src].  The result is [src] as the call leaves it. *)
Definition emplace_back_u_ptr (src : unique_ptr) : M unique_ptr :=
  let '(element, src) := move src in
  l ← get_u_ptrs;
  set_u_ptrs (l ++ [element]) ;;
  mret src.

(** The parameter is a [unique_ptr] by value: the body moves it into the
    vector, and what is left of it is destroyed on return. *)
Definition add_element_u_ptr (element_u_ptr : unique_ptr) : M unit :=
  element_u_ptr ← emplace_back_u_ptr element_u_ptr;
  destroy_u_ptr element_u_ptr.

(** [emplace_back] on a temporary, which is destroyed when the statement
    ends. *)
Definition emplace_back_temporary (temporary : unique_ptr) : M unit :=
  temporary ← emplace_back_u_ptr temporary;
  destroy_u_ptr temporary.

(** A call [drawing.add_element_u_ptr(std::move(e))] on a handle [e] of the
    caller: the parameter is move-constructed from [e].  The result is [e] as
    the caller finds it after the call. *)
Definition add_element_u_ptr_from (e : unique_ptr) : M unique_ptr :=
  let '(argument, e) := move e in
  add_element_u_ptr argument ;;
  mret e.

Definition empty_ptrs_message : string := "Collection of pointers is empty".
Definition null_pointer_notice : string := "  ** Null pointer".
Definition ptrs_header (n : nat) : string :=
  "Rendering " +:+ show_size n +:+ " elements from pointers".
Definition u_ptrs_header (n : nat) : string :=
  "Rendering " +:+ show_size n +:+ " elements from unique pointers".

(** The body of the loop of [render_ptrs]. *)
Definition render_ptr (element_ptr : ptr) : M unit :=
  match element_ptr with
  | None => endl null_pointer_notice
  | Some a => call_render a
  end.

Definition render_ptrs : M unit :=
  endl blank_line ;;
  ptrs ← get_ptrs;
  if decide (ptrs = []) then endl empty_ptrs_message
  else
    endl (ptrs_header (length ptrs)) ;;
    for_each render_ptr ptrs.

Definition render_u_ptrs : M unit :=
  endl blank_line ;;
  u_ptrs ← get_u_ptrs;
  endl (u_ptrs_header (length u_ptrs)) ;;
  for_each arrow_render u_ptrs.

Definition clear_drawing_ptrs : M unit :=
  endl blank_line ;;
  endl "* Deleting pointers" ;;
  ptrs ← get_ptrs;
  for_each delete_ptr ptrs ;;
  set_ptrs [].

(** [_drawing_u_ptrs.clear()]: every element of the vector is destroyed. *)
Definition clear_u_ptrs : M unit :=
  u_ptrs ← get_u_ptrs;
  for_each destroy_u_ptr u_ptrs ;;
  set_u_ptrs [].

(** [~Drawing()]: the body, then the members. *)
Definition destroy_Drawing : M unit :=
  clear_drawing_ptrs ;;
  clear_u_ptrs.

Section Allocator.

(** The address chosen for a new object.  All that is known of it is that no
    live object is there. *)
Variable alloc : memory → addr.

Definition place (st : storage) (e : DrawingElement) : M addr := λ s,
  let a := alloc (mem s) in
  Done (a, State (<[a := Object st e]> (mem s)) (cout s) (this s)).

(** [new T{...}] *)
Definition new (e : DrawingElement) : M addr := place Dynamic e.

(** A local variable [T name{...}]. *)
Definition local (e : DrawingElement) : M addr := place Automatic e.

Definition getPointPtr (x y : Z) : M unique_ptr :=
  a ← new (Point x y); mret (Some a).

Definition getLinePtr (x1 y1 x2 y2 : Z) : M unique_ptr :=
  a ← new (Line x1 y1 x2 y2); mret (Some a).

Definition getRectanglePtr (x y w h : Z) : M unique_ptr :=
  a ← new (Rectangle x y w h); mret (Some a).

(** [draw]: the vector [_drawing] is cleared, which it is already, and the
    three locals live until the function returns. *)
Definition draw : M unit :=
  point ← local (Point 10 15);
  line ← local (Line 25 25 50 100);
  rect ← local (Rectangle 50 50 100 75);
  leave rect ;; leave line ;; leave point.

Definition draw_ptrs : M unit :=
  set_ptrs [] ;;
  point ← local (Point 10 15);
  line ← local (Line 25 25 50 100);
  rect ← local (Rectangle 50 50 100 75);
  a ← new (Point 45 55); add_element_ptr (Some a) ;;
  b ← new (Line 88 98 456 987); add_element_ptr (Some b) ;;
  c ← new (Rectangle 879 654 123 321); add_element_ptr (Some c) ;;
  leave rect ;; leave line ;; leave point.

Definition draw_u_ptrs : M unit :=
  clear_u_ptrs ;;
  a ← new (Point 10 15); emplace_back_temporary (Some a) ;;
  p ← getPointPtr 35 22; emplace_back_temporary p ;;
  l ← getLinePtr 55 122 234 556; emplace_back_temporary l ;;
  r ← getRectanglePtr 3 194 34 200; emplace_back_temporary r.

(** [main] up to the destruction of [drawing]: its statements, and the three
    locals declared after [drawing] destroyed in reverse order. *)
Definition main_body : M unit :=
  point ← local (Point 11 12);
  line ← local (Line 22 23 124 125);
  rect ← local (Rectangle 33 34 234 75);
  call_render point ;;
  call_render line ;;
  call_render rect ;;
  add_element_ptr (Some point) ;;
  add_element_ptr (Some line) ;;
  add_element_ptr (Some rect) ;;
  render_ptrs ;;
  draw_ptrs ;;
  render_ptrs ;;
  draw_u_ptrs ;;
  render_u_ptrs ;;
  leave rect ;; leave line ;; leave point.

Definition main : M unit :=
  main_body ;;
  destroy_Drawing.

(** The scenario of the owned store: three elements from the factory
    functions, added in this order, then rendered. *)
Definition three_owned_shapes : M unit :=
  p ← getPointPtr 10 15; add_element_u_ptr p ;;
  l ← getLinePtr 25 25 50 100; add_element_u_ptr l ;;
  r ← getRectanglePtr 50 50 100 75; add_element_u_ptr r ;;
  render_u_ptrs.

End Allocator.

(** An allocator to run the program with: an address not in use. *)
Definition fresh_addr (m : memory) : addr := fresh (dom m).

(** The state in which [main] starts: no objects, nothing written, and a
    [Drawing] as its constructor leaves it. *)
Definition init : state := State ∅ [] (MkDrawing [] []).

(** ** What a state holds *)

(** The addresses in a vector of pointers, nulls dropped. *)
Definition targets (l : list (option addr)) : list addr := omap id l.

(** The element a pointer leads to, if it leads to a live object. *)
Definition referent (m : memory) (p : option addr) : option DrawingElement :=
  a ← p; obj_value <$> m !! a.

(** The line the loop of [render_ptrs] writes for a slot, if the slot can be
    rendered: the notice for a null pointer, the element's line for a pointer
    to a live object. *)
Definition ptr_line (m : memory) (p : ptr) : option string :=
  match p with
  | None => Some null_pointer_notice
  | Some a => render <$> referent m (Some a)
  end.

(** A pointer that is null, or to a live object made by [new]: the least
    a [delete] asks of it. *)
Definition deletable (m : memory) (p : option addr) : Prop :=
  match p with
  | None => True
  | Some a => obj_storage <$> m !! a = Some Dynamic
  end.

Global Instance deletable_dec m p : Decision (deletable m p).
Proof. destruct p; cbn; apply _. Defined.

(** A vector of such pointers with no address twice.  For the vector of
    unique pointers this is what [std::unique_ptr] stands for. *)
Definition exclusive (m : memory) (l : list (option addr)) : Prop :=
  NoDup (targets l) ∧ Forall (deletable m) l.

Global Instance exclusive_dec m l : Decision (exclusive m l).
Proof. apply _. Defined.

(** The elements an exclusive vector of pointers owns, in order. *)
Definition owns (m : memory) (l : list (option addr)) (es : list DrawingElement) : Prop :=
  exclusive m l ∧ mapM (referent m) l = Some es.

(** Two states with the same objects and the same [Drawing]; the text written
    may differ. *)
Definition same_store (s1 s2 : state) : Prop :=
  mem s1 = mem s2 ∧ this s1 = this s2.

(** A computation that only writes: it leaves the objects and the [Drawing]
    as they are, and what it writes does not depend on what was written
    before. *)
Definition writes_only (c : M unit) (m : memory) (d : Drawing)
    (lines : list string) : Prop :=
  ∀ o, c (State m o d) = Done (tt, State m (o ++ lines) d).


(** * Properties *)

Ltac unfold_M :=
  unfold exec, mbind, M_bind, mret, M_ret, undefined, endl, get_ptrs,
    get_u_ptrs, set_ptrs, set_u_ptrs, leave, destroy_u_ptr, add_element_ptr,
    emplace_back_u_ptr, emplace_back_temporary, add_element_u_ptr,
    add_element_u_ptr_from, move in *.

Ltac run := unfold_M; cbn in *.

Section Loops.

Context {A : Type}.
Implicit Types (body : A → M unit) (l : list A) (s : state).

Lemma for_each_cons body x l s :
  for_each body (x :: l) s
  = match body x s with
    | Done (_, s') => for_each body l s'
    | Undefined h => Undefined h
    end.
Proof. done. Qed.

Lemma for_each_app body l1 l2 s :
  for_each body (l1 ++ l2) s = (for_each body l1 ;; for_each body l2) s.
Proof.
  revert s. induction l1 as [|x l1 IH]; intros s; [done|].
  cbn. unfold mbind, M_bind in *. destruct (body x s) as [[[] s']|h]; [|done].
  apply IH.
Qed.

Lemma for_each_snoc body l x s :
  for_each body (l ++ [x]) s = (for_each body l ;; body x) s.
Proof.
  rewrite for_each_app. unfold mbind, M_bind.
  destruct (for_each body l s) as [[[] s']|h]; [|done].
  cbn. unfold mbind, M_bind, mret, M_ret.
  by destruct (body x s') as [[[] s'']|h].
Qed.

End Loops.

Lemma for_each_render_ptr m o d ptrs lines :
  mapM (ptr_line m) ptrs = Some lines →
  for_each render_ptr ptrs (State m o d) = Done (tt, State m (o ++ lines) d).
Proof.
  revert o lines. induction ptrs as [|p ptrs IH]; intros o lines Hl.
  - injection Hl as <-. cbn. by rewrite app_nil_r.
  - cbn in Hl. destruct (ptr_line m p) as [line|] eqn:Hp; [|done].
    destruct (mapM (ptr_line m) ptrs) as [rest|] eqn:Hrest; [|done].
    injection Hl as <-. cbn. unfold mbind at 1, M_bind.
    assert (render_ptr p (State m o d) = Done (tt, State m (o ++ [line]) d)) as ->.
    { destruct p as [a|]; cbn in *.
      - unfold call_render; cbn. destruct (m !! a) as [ob|]; [|done].
        cbn in Hp. by injection Hp as <-.
      - by injection Hp as <-. }
    rewrite (IH _ rest eq_refl). by rewrite <-app_assoc.
Qed.

Lemma for_each_arrow_render m o d hs es :
  Forall2 (λ h e, referent m h = Some e) hs es →
  for_each arrow_render hs (State m o d)
  = Done (tt, State m (o ++ (render <$> es)) d).
Proof.
  intros H. revert o. induction H as [|h e hs es Hh _ IH]; intros o.
  - cbn. by rewrite app_nil_r.
  - cbn. unfold mbind at 1, M_bind.
    assert (arrow_render h (State m o d) = Done (tt, State m (o ++ [render e]) d)) as ->.
    { destruct h as [a|]; [|done]. cbn in *. unfold call_render; cbn.
      destruct (m !! a) as [ob|]; [|done]. cbn in Hh. by injection Hh as <-. }
    rewrite IH. by rewrite <-app_assoc.
Qed.

Lemma for_each_add_element_u_ptr m o ptrs us hs :
  for_each add_element_u_ptr hs (State m o (MkDrawing ptrs us))
  = Done (tt, State m o (MkDrawing ptrs (us ++ hs))).
Proof.
  revert us. induction hs as [|h hs IH]; intros us.
  - cbn. by rewrite app_nil_r.
  - rewrite for_each_cons.
    assert (add_element_u_ptr h (State m o (MkDrawing ptrs us))
            = Done (tt, State m o (MkDrawing ptrs (us ++ [h])))) as -> by done.
    rewrite IH. by rewrite <-app_assoc.
Qed.

(** A null handle in the vector of unique pointers: the loop of
    [render_u_ptrs] does not get past it. *)
Lemma for_each_arrow_render_null s hs :
  nullptr ∈ hs → ∃ h, for_each arrow_render hs s = Undefined h.
Proof.
  revert s. induction hs as [|h hs IH]; intros s Hin.
  - by apply elem_of_nil in Hin.
  - cbn. unfold mbind, M_bind.
    destruct h as [a|]; [|by eexists].
    apply elem_of_cons in Hin as [|Hin]; [done|].
    destruct (arrow_render (Some a) s) as [[[] s']|h]; [|by eexists].
    by apply IH.
Qed.

Lemma render_u_ptrs_null_undefined s :
  nullptr ∈ _drawing_u_ptrs (this s) → ∃ h, render_u_ptrs s = Undefined h.
Proof.
  intros Hin. unfold render_u_ptrs. run.
  by apply for_each_arrow_render_null.
Qed.

Section Writers.

Context {A : Type} (body : A → M unit).
Hypothesis body_writes : ∀ x m o d s',
  body x (State m o d) = Done (tt, s') → ∃ lines, writes_only (body x) m d lines.

Lemma for_each_writes l m o d s' :
  for_each body l (State m o d) = Done (tt, s') →
  ∃ lines, writes_only (for_each body l) m d lines.
Proof.
  revert o s'. induction l as [|x l IH]; intros o s' Hrun.
  - exists []. intros o'. cbn. by rewrite app_nil_r.
  - cbn in Hrun. unfold mbind, M_bind in Hrun.
    destruct (body x (State m o d)) as [[[] s1]|h] eqn:Hx; [|done].
    destruct (body_writes _ _ _ _ _ Hx) as [lines1 H1].
    rewrite H1 in Hx. injection Hx as <-.
    destruct (IH _ _ Hrun) as [lines2 H2].
    exists (lines1 ++ lines2). intros o'. cbn. unfold mbind, M_bind.
    rewrite H1, H2. by rewrite <-app_assoc.
Qed.

End Writers.

Lemma call_render_writes a m o d s' :
  call_render a (State m o d) = Done (tt, s') →
  ∃ lines, writes_only (call_render a) m d lines.
Proof.
  unfold call_render, writes_only; cbn.
  destruct (m !! a) as [ob|]; [|done]. intros _. by eexists [_].
Qed.

Lemma render_ptr_writes p m o d s' :
  render_ptr p (State m o d) = Done (tt, s') →
  ∃ lines, writes_only (render_ptr p) m d lines.
Proof.
  destruct p as [a|]; cbn; [apply call_render_writes|].
  intros _. by eexists [_].
Qed.

Lemma arrow_render_writes h m o d s' :
  arrow_render h (State m o d) = Done (tt, s') →
  ∃ lines, writes_only (arrow_render h) m d lines.
Proof. destruct h as [a|]; cbn; [apply call_render_writes|done]. Qed.

Lemma render_ptrs_writes m o d s' :
  render_ptrs (State m o d) = Done (tt, s') →
  ∃ lines, writes_only render_ptrs m d lines.
Proof.
  unfold render_ptrs, writes_only. run.
  destruct (decide (_drawing_ptrs d = [])) as [Hd|Hd].
  - intros _. exists [blank_line; empty_ptrs_message]. intros o'.
    cbn. by rewrite <-app_assoc.
  - cbn. intros Hrun.
    destruct (for_each_writes _ render_ptr_writes _ _ _ _ _ Hrun) as [lines Hl].
    exists (blank_line :: ptrs_header (length (_drawing_ptrs d)) :: lines).
    intros o'. rewrite Hl. by rewrite <-!app_assoc.
Qed.

Lemma render_u_ptrs_writes m o d s' :
  render_u_ptrs (State m o d) = Done (tt, s') →
  ∃ lines, writes_only render_u_ptrs m d lines.
Proof.
  unfold render_u_ptrs, writes_only. run. intros Hrun.
  destruct (for_each_writes _ arrow_render_writes _ _ _ _ _ Hrun) as [lines Hl].
  exists (blank_line :: u_ptrs_header (length (_drawing_u_ptrs d)) :: lines).
  intros o'. rewrite Hl. by rewrite <-!app_assoc.
Qed.

(** Running a writer twice writes the same lines twice and changes nothing
    else. *)
Lemma writes_only_twice c m d lines s s' :
  writes_only c m d lines → mem s = m → this s = d →
  exec c s = Done s' →
  same_store s s' ∧ cout s' = cout s ++ lines ∧
  exec c s' = Done (State m (cout s' ++ lines) d).
Proof.
  intros Hw <- <-. destruct s as [m o d]; cbn in *.
  unfold exec. rewrite !Hw. intros [= <-]; cbn. by rewrite Hw.
Qed.

(** ** Deleting *)

(** The loop of [delete]s gets through a vector of null pointers, and
    through no other. *)
Lemma for_each_delete_ptr_outcome l s :
  for_each delete_ptr l s
  = if decide (targets l = []) then Done (tt, s) else Undefined InvalidDelete.
Proof.
  induction l as [|p l IH]; [done|]. rewrite for_each_cons.
  destruct p as [a|]; cbn; [|done]. by rewrite decide_False.
Qed.


Lemma targets_nil_exclusive m l : targets l = [] → exclusive m l.
Proof.
  intros Hl. split; [rewrite Hl; constructor|].
  apply Forall_forall. intros [a|] Hin; [|done].
  assert (a ∈ targets l) as Ha by (apply list_elem_of_omap; by exists (Some a)).
  rewrite Hl in Ha. by apply elem_of_nil in Ha.
Qed.

Lemma for_each_delete_ptr_not_exclusive l m o d :
  ¬ exclusive m l →
  for_each delete_ptr l (State m o d) = Undefined InvalidDelete.
Proof.
  intros Hnot. rewrite for_each_delete_ptr_outcome.
  rewrite decide_False; [done|]. intros Hl. by apply Hnot, targets_nil_exclusive.
Qed.

Lemma clear_drawing_ptrs_outcome m o d :
  clear_drawing_ptrs (State m o d)
  = if decide (targets (_drawing_ptrs d) = [])
    then Done (tt, State m (o ++ [blank_line; "* Deleting pointers"])
                     (MkDrawing [] (_drawing_u_ptrs d)))
    else Undefined InvalidDelete.
Proof.
  unfold clear_drawing_ptrs. run. rewrite for_each_delete_ptr_outcome.
  case_decide; [|done]. cbn. by rewrite <-app_assoc.
Qed.

Lemma clear_u_ptrs_outcome m o d :
  clear_u_ptrs (State m o d)
  = if decide (targets (_drawing_u_ptrs d) = [])
    then Done (tt, State m o (MkDrawing (_drawing_ptrs d) []))
    else Undefined InvalidDelete.
Proof.
  unfold clear_u_ptrs. run.
  change (for_each (λ h, delete_ptr h)) with (for_each delete_ptr).
  rewrite for_each_delete_ptr_outcome. by case_decide.
Qed.



Lemma clear_u_ptrs_empty m o ptrs :
  clear_u_ptrs (State m o (MkDrawing ptrs [])) = Done (tt, State m o (MkDrawing ptrs [])).
Proof. done. Qed.


(** ** Allocating *)

Lemma fresh_addr_fresh (m : memory) : m !! fresh_addr m = None.
Proof. apply not_elem_of_dom. unfold fresh_addr. apply is_fresh. Qed.

Lemma owns_nil m : owns m [] [].
Proof. repeat split; constructor. Qed.

Section Allocation.

Context (alloc : memory → addr).
Hypothesis alloc_fresh : ∀ m : memory, m !! alloc m = None.

Lemma referent_place m st e p e' :
  referent m p = Some e' →
  referent (<[alloc m := Object st e]> m) p = Some e'.
Proof.
  destruct p as [a|]; [|done]. cbn. intros Ha.
  rewrite lookup_insert_ne; [done|]. intros <-. by rewrite alloc_fresh in Ha.
Qed.

Lemma deletable_place m st e p :
  deletable m p → deletable (<[alloc m := Object st e]> m) p.
Proof.
  destruct p as [a|]; [|done]. cbn. intros Ha.
  rewrite lookup_insert_ne; [done|]. intros <-. by rewrite alloc_fresh in Ha.
Qed.

(** A local variable that comes and goes leaves an owned vector alone. *)
Lemma owns_place m st e l es :
  owns m l es → owns (<[alloc m := Object st e]> m) l es.
Proof.
  intros [[Hnd Hall] Hes]. repeat split; [done|..].
  - eapply Forall_impl; [done|]. intros p. apply deletable_place.
  - apply mapM_Some. apply mapM_Some in Hes.
    eapply Forall2_impl; [done|]. intros p e'. apply referent_place.
Qed.

(** A new object, owned by a pointer put at the end of the vector. *)
Lemma owns_snoc_new m l es e :
  owns m l es →
  owns (<[alloc m := Object Dynamic e]> m) (l ++ [Some (alloc m)]) (es ++ [e]).
Proof.
  intros Hl. destruct (owns_place m Dynamic e l es Hl) as [[Hnd Hall] Hes].
  repeat split.
  - unfold targets in *. rewrite omap_app. cbn. apply NoDup_app.
    split_and!; [done| |apply NoDup_singleton].
    intros a [p [Hp Hpa]]%list_elem_of_omap ->%list_elem_of_singleton.
    destruct p as [b|]; [|done]. injection Hpa as ->.
    destruct Hl as [[_ Hdel] _]. rewrite Forall_forall in Hdel.
    specialize (Hdel _ Hp). cbn in Hdel. by rewrite alloc_fresh in Hdel.
  - apply Forall_app. split; [done|]. constructor; [|done].
    cbn. by rewrite lookup_insert_eq.
  - apply mapM_Some. apply mapM_Some in Hes. apply Forall2_app; [done|].
    constructor; [|done]. cbn. by rewrite lookup_insert_eq.
Qed.

End Allocation.

(** * The claims *)

(** C1.  Handles added with [add_element_u_ptr] to an empty vector of unique
    pointers, each holding an element: [render_u_ptrs] then writes, after its
    blank line and its header, one line per element, the lines of the elements
    in the order in which they were added, and as many as there were adds. *)
Theorem render_u_ptrs_insertion_order s hs es :
  _drawing_u_ptrs (this s) = [] →
  mapM (referent (mem s)) hs = Some es →
  exec (for_each add_element_u_ptr hs ;; render_u_ptrs) s
  = Done (State (mem s)
            (cout s ++ blank_line :: u_ptrs_header (length hs) :: (render <$> es))
            (MkDrawing (_drawing_ptrs (this s)) hs))
  ∧ length (render <$> es) = length hs.
Proof.
  intros Hempty Hes. apply mapM_Some in Hes.
  split; [|by rewrite length_fmap, (Forall2_length _ _ _ Hes)].
  destruct s as [m o [ptrs us]]; cbn in *; subst us.
  unfold exec, mbind, M_bind. rewrite for_each_add_element_u_ptr. cbn [app].
  unfold render_u_ptrs. run.
  rewrite (for_each_arrow_render _ _ _ _ es Hes). by rewrite <-!app_assoc.
Qed.

(** C2.  On an empty vector of unique pointers [render_u_ptrs] writes a blank
    line and its usual header, with the count 0, and no element line.  It has
    no message of its own for the empty vector; [render_ptrs] has one, which
    it writes instead of its header. *)
Theorem render_u_ptrs_empty_store_header m o ptrs us :
  exec render_u_ptrs (State m o (MkDrawing ptrs []))
  = Done (State m (o ++ [blank_line; "Rendering 0 elements from unique pointers"])
            (MkDrawing ptrs []))
  ∧ u_ptrs_header 0 = "Rendering 0 elements from unique pointers"
  ∧ exec render_ptrs (State m o (MkDrawing [] us))
    = Done (State m (o ++ [blank_line; "Collection of pointers is empty"])
              (MkDrawing [] us)).
Proof.
  split_and!; [|done|].
  - unfold render_u_ptrs. run. by rewrite <-app_assoc.
  - unfold render_ptrs. run. rewrite decide_True by done. cbn.
    by rewrite <-app_assoc.
Qed.

(** C3.  A null pointer in the vector of raw pointers, the other slots null
    or pointing to live objects: [render_ptrs] writes the notice for the null
    pointer once, in the place of that slot, between the lines of the slots
    before it and the lines of the slots after it. *)
Theorem render_ptrs_null_pointer_skipped s before after lines_before lines_after :
  _drawing_ptrs (this s) = before ++ nullptr :: after →
  mapM (ptr_line (mem s)) before = Some lines_before →
  mapM (ptr_line (mem s)) after = Some lines_after →
  exec render_ptrs s
  = Done (State (mem s)
            (cout s ++ blank_line :: ptrs_header (length (before ++ nullptr :: after))
               :: lines_before ++ "  ** Null pointer" :: lines_after)
            (this s))
  ∧ length lines_before = length before
  ∧ length lines_after = length after.
Proof.
  intros Hptrs Hb Ha.
  assert (mapM (ptr_line (mem s)) (before ++ nullptr :: after)
          = Some (lines_before ++ null_pointer_notice :: lines_after)) as Hall.
  { apply mapM_Some. apply mapM_Some in Hb, Ha.
    apply Forall2_app; [done|]. by constructor. }
  split_and!.
  - destruct s as [m o d]; cbn in *. unfold render_ptrs. run.
    rewrite Hptrs. rewrite decide_False by (by destruct before).
    cbn. rewrite (for_each_render_ptr _ _ _ _ _ Hall).
    by rewrite <-!app_assoc.
  - apply mapM_Some in Hb. symmetry. by eapply Forall2_length.
  - apply mapM_Some in Ha. symmetry. by eapply Forall2_length.
Qed.

(** C4.  [add_element_u_ptr] takes a null handle and stores it;
    [render_u_ptrs] then applies [->] to it, which is undefined.  The same
    null pointer in the vector of raw pointers is skipped by [render_ptrs]
    with a notice. *)
Theorem render_u_ptrs_null_handle_dereferenced :
  exec (add_element_u_ptr nullptr) init
  = Done (State ∅ [] (MkDrawing [] [nullptr]))
  ∧ exec (add_element_u_ptr nullptr ;; render_u_ptrs) init
    = Undefined NullDereference
  ∧ exec (add_element_ptr nullptr ;; render_ptrs) init
    = Done (State ∅ [blank_line; "Rendering 1 elements from pointers"; "  ** Null pointer"]
              (MkDrawing [nullptr] [])).
Proof. by split_and!. Qed.

(** C5, as the code has it.  [clear_drawing_ptrs] empties the vector and
    leaves every object as it was when the vector holds null pointers only.
    To any other pointer it applies [delete] before it gets to empty the
    vector, so that the object pointed to is not left alone; with the
    destructor of [DrawingElement] as it is, that [delete] is undefined. *)
Theorem clear_drawing_ptrs_applies_delete s :
  exec clear_drawing_ptrs s
  = if decide (targets (_drawing_ptrs (this s)) = [])
    then Done (State (mem s) (cout s ++ [blank_line; "* Deleting pointers"])
                 (MkDrawing [] (_drawing_u_ptrs (this s))))
    else Undefined InvalidDelete.
Proof.
  destruct s as [m o d]. unfold exec. rewrite clear_drawing_ptrs_outcome.
  cbn [this mem cout]. by case_decide.
Qed.


(** C8.  A call of [add_element_u_ptr] with a handle of the caller moved into
    it: the vector has the handle's pointer at its end, the caller's handle is
    null, so that rendering through it is a null dereference, and the
    pointers held by the vector and the caller together are the ones held
    before: none is held twice that was not. *)
Theorem add_element_u_ptr_moves_handle m o ptrs us e :
  add_element_u_ptr_from e (State m o (MkDrawing ptrs us))
  = Done (nullptr, State m o (MkDrawing ptrs (us ++ [e])))
  ∧ targets ((us ++ [e]) ++ [nullptr]) = targets (us ++ [e])
  ∧ exec (e' ← add_element_u_ptr_from e; arrow_render e')
      (State m o (MkDrawing ptrs us))
    = Undefined NullDereference.
Proof.
  split_and!; [done| |done].
  unfold targets. rewrite (omap_app _ (us ++ [e])). cbn. by rewrite app_nil_r.
Qed.

(** C9.  A rendering that finishes has changed neither the objects nor the
    two vectors; run again, it writes the same lines again. *)
Theorem render_read_only (c : M unit) s s' :
  c = render_ptrs ∨ c = render_u_ptrs →
  exec c s = Done s' →
  same_store s s' ∧
  ∃ lines, cout s' = cout s ++ lines ∧
           exec c s' = Done (State (mem s') (cout s' ++ lines) (this s')).
Proof.
  intros Hc Hrun.
  assert (∃ lines, writes_only c (mem s) (this s) lines) as [lines Hw].
  { unfold exec in Hrun. destruct (c s) as [[[] s1]|h] eqn:Hcs; [|done].
    destruct s as [m o d]. destruct Hc as [-> | ->].
    - by eapply render_ptrs_writes.
    - by eapply render_u_ptrs_writes. }
  destruct (writes_only_twice c _ _ lines s s' Hw eq_refl eq_refl Hrun)
    as ([Hm Hd] & Ho & Hagain).
  split; [done|]. exists lines. split; [done|]. by rewrite <-Hm, <-Hd.
Qed.

Lemma render_u_ptrs_owned m o ptrs us es :
  mapM (referent m) us = Some es →
  render_u_ptrs (State m o (MkDrawing ptrs us))
  = Done (tt, State m (o ++ blank_line :: u_ptrs_header (length us) :: (render <$> es))
                (MkDrawing ptrs us)).
Proof.
  intros Hes%mapM_Some. unfold render_u_ptrs. run.
  rewrite (for_each_arrow_render _ _ _ _ es Hes). by rewrite <-!app_assoc.
Qed.

Section OwnedStore.

Context (alloc : memory → addr).
Hypothesis alloc_fresh : ∀ m : memory, m !! alloc m = None.

(** C7.  A point (10,15), a line (25,25,50,100) and a rectangle
    (50,50,100,75) from the factory functions, added in this order to an
    empty vector of unique pointers: [render_u_ptrs] writes, after its blank
    line and its header for 3 elements, three lines, for the point, the line
    and the rectangle in this order, each with the coordinates given. *)
Theorem three_owned_shapes_rendered m o ptrs :
  ∃ m' us',
    exec (three_owned_shapes alloc) (State m o (MkDrawing ptrs []))
    = Done (State m'
              (o ++ [blank_line; "Rendering 3 elements from unique pointers";
                     "Rendering a point (10, 15)";
                     "Rendering a line from (25, 25) to (50, 100)";
                     "Rendering a rectangle of dimension 100x75, from (50, 50)"])
              (MkDrawing ptrs us'))
    ∧ owns m' us' [Point 10 15; Line 25 25 50 100; Rectangle 50 50 100 75].
Proof.
  pose proof (owns_nil m) as H0.
  apply (owns_snoc_new alloc alloc_fresh _ _ _ (Point 10 15)) in H0 as H1.
  apply (owns_snoc_new alloc alloc_fresh _ _ _ (Line 25 25 50 100)) in H1 as H2.
  apply (owns_snoc_new alloc alloc_fresh _ _ _ (Rectangle 50 50 100 75)) in H2 as H3.
  cbn [app] in *. eexists _, _. split; [|exact H3].
  destruct H3 as [_ H3].
  pose proof (render_u_ptrs_owned _ o ptrs _ _ H3) as Hrender.
  unfold exec.
  match type of Hrender with
  | render_u_ptrs ?s3 = _ =>
      change (three_owned_shapes alloc _) with (render_u_ptrs s3)
  end.
  by rewrite Hrender.
Qed.

End OwnedStore.

(** * The program, and the claims on given states *)

(** With [fresh_addr] as the allocator, [main] gets to the
    destruction of [drawing] with these lines written and seven objects made
    by [new]; the destructor then deletes through [DrawingElement*]. *)
Example main_runs :
  exec (main_body fresh_addr) init
  = Done (State {[7%positive := Object Dynamic (Point 45 55);
                  8%positive := Object Dynamic (Line 88 98 456 987);
                  9%positive := Object Dynamic (Rectangle 879 654 123 321);
                  10%positive := Object Dynamic (Point 10 15);
                  11%positive := Object Dynamic (Point 35 22);
                  12%positive := Object Dynamic (Line 55 122 234 556);
                  13%positive := Object Dynamic (Rectangle 3 194 34 200)]}
            ["Rendering a point (11, 12)";
             "Rendering a line from (22, 23) to (124, 125)";
             "Rendering a rectangle of dimension 234x75, from (33, 34)";
             blank_line; "Rendering 3 elements from pointers";
             "Rendering a point (11, 12)";
             "Rendering a line from (22, 23) to (124, 125)";
             "Rendering a rectangle of dimension 234x75, from (33, 34)";
             blank_line; "Rendering 3 elements from pointers";
             "Rendering a point (45, 55)";
             "Rendering a line from (88, 98) to (456, 987)";
             "Rendering a rectangle of dimension 123x321, from (879, 654)";
             blank_line; "Rendering 4 elements from unique pointers";
             "Rendering a point (10, 15)"; "Rendering a point (35, 22)";
             "Rendering a line from (55, 122) to (234, 556)";
             "Rendering a rectangle of dimension 34x200, from (3, 194)"]
            (MkDrawing [Some 7%positive; Some 8%positive; Some 9%positive]
               [Some 10%positive; Some 11%positive; Some 12%positive;
                Some 13%positive]))
  ∧ exec (main fresh_addr) init = Undefined InvalidDelete.
Proof. split; vm_compute; reflexivity. Qed.

Example render_negative : render (Point (-3) 0) = "Rendering a point (-3, 0)".
Proof. reflexivity. Qed.

(** C1 on two handles, to a line and to a point. *)
Lemma render_u_ptrs_insertion_order_witness :
  let s := State {[1%positive := Object Dynamic (Point 10 15);
                   2%positive := Object Dynamic (Line 25 25 50 100)]}
             [] (MkDrawing [] []) in
  let hs := [Some 2%positive; Some 1%positive] in
  let es := [Line 25 25 50 100; Point 10 15] in
  exec (for_each add_element_u_ptr hs ;; render_u_ptrs) s
  = Done (State (mem s)
            (cout s ++ blank_line :: u_ptrs_header (length hs) :: (render <$> es))
            (MkDrawing (_drawing_ptrs (this s)) hs))
  ∧ length (render <$> es) = length hs.
Proof.
  intros s hs es. apply (render_u_ptrs_insertion_order s hs es); reflexivity.
Defined.

(** C3 on the three locals of [main] with a null pointer after the first. *)
Lemma render_ptrs_null_pointer_skipped_witness :
  let s := State {[1%positive := Object Automatic (Point 11 12);
                   2%positive := Object Automatic (Line 22 23 124 125);
                   3%positive := Object Automatic (Rectangle 33 34 234 75)]}
             []
             (MkDrawing [Some 1%positive; nullptr; Some 2%positive; Some 3%positive] []) in
  exec render_ptrs s
  = Done (State (mem s)
            (cout s ++ blank_line :: ptrs_header (length ([Some 1%positive] ++ nullptr :: [Some 2%positive; Some 3%positive]))
               :: [render (Point 11 12)] ++ "  ** Null pointer"
               :: [render (Line 22 23 124 125); render (Rectangle 33 34 234 75)])
            (this s))
  ∧ length [render (Point 11 12)] = length [Some 1%positive]
  ∧ length [render (Line 22 23 124 125); render (Rectangle 33 34 234 75)]
    = length [Some 2%positive; Some 3%positive].
Proof.
  intros s.
  apply (render_ptrs_null_pointer_skipped s [Some 1%positive]
           [Some 2%positive; Some 3%positive]); reflexivity.
Defined.

(** C5, as claimed, fails on the state in which [draw_ptrs] leaves a fresh
    [Drawing]: [clear_drawing_ptrs] does not end with the vector empty and
    the three objects as they were, it applies [delete] to them. *)
Lemma clear_drawing_ptrs_touches_referents :
  exec (draw_ptrs fresh_addr) init
  = Done (State {[4%positive := Object Dynamic (Point 45 55);
                  5%positive := Object Dynamic (Line 88 98 456 987);
                  6%positive := Object Dynamic (Rectangle 879 654 123 321)]}
            []
            (MkDrawing [Some 4%positive; Some 5%positive; Some 6%positive] []))
  ∧ exec (draw_ptrs fresh_addr ;; clear_drawing_ptrs) init
    = Undefined InvalidDelete.
Proof. split; vm_compute; reflexivity. Qed.

(** C7 with [fresh_addr] as the allocator, from the start. *)
Lemma three_owned_shapes_rendered_witness :
  ∃ m' us',
    exec (three_owned_shapes fresh_addr) (State ∅ [] (MkDrawing [] []))
    = Done (State m'
              ([] ++ [blank_line; "Rendering 3 elements from unique pointers";
                      "Rendering a point (10, 15)";
                      "Rendering a line from (25, 25) to (50, 100)";
                      "Rendering a rectangle of dimension 100x75, from (50, 50)"])
              (MkDrawing [] us'))
    ∧ owns m' us' [Point 10 15; Line 25 25 50 100; Rectangle 50 50 100 75].
Proof. exact (three_owned_shapes_rendered fresh_addr fresh_addr_fresh ∅ [] []). Defined.

(** C9 on a vector of raw pointers that holds a null pointer. *)
Lemma render_read_only_witness :
  let s := State ∅ [] (MkDrawing [nullptr] []) in
  let s' := State ∅ [blank_line; ptrs_header 1; null_pointer_notice] (MkDrawing [nullptr] []) in
  same_store s s' ∧
  ∃ lines, cout s' = cout s ++ lines ∧
           exec render_ptrs s' = Done (State (mem s') (cout s' ++ lines) (this s')).
Proof.
  intros s s'. apply (render_read_only render_ptrs s s'); [left|]; reflexivity.
Defined.

(** C10.  A first call of [draw_u_ptrs] on a fresh [Drawing] leaves the four
    elements in the vector of unique pointers.  A second call does not: its
    [clear()] destroys the four unique pointers, each of which deletes its
    element through [DrawingElement*], whose destructor is not virtual. *)
Theorem draw_u_ptrs_second_call_undefined :
  exec (draw_u_ptrs fresh_addr) init
  = Done (State {[1%positive := Object Dynamic (Point 10 15);
                  2%positive := Object Dynamic (Point 35 22);
                  3%positive := Object Dynamic (Line 55 122 234 556);
                  4%positive := Object Dynamic (Rectangle 3 194 34 200)]}
            []
            (MkDrawing [] [Some 1%positive; Some 2%positive; Some 3%positive;
                           Some 4%positive]))
  ∧ exec (draw_u_ptrs fresh_addr ;; draw_u_ptrs fresh_addr) init
    = Undefined InvalidDelete.
Proof. split; vm_compute; reflexivity. Qed.

(** * Further properties *)

(** ** The lines of [render] *)

Lemma numeral_pretty_N_go x s : numeral s → numeral (pretty_N_go x s).
Proof.
  revert s. induction (N.lt_wf_0 x) as [x _ IH]; intros s Hs.
  destruct (decide (x = 0)%N) as [->|Hx]; [by rewrite pretty_N_go_0|].
  rewrite pretty_N_go_step by lia. apply IH.
  - apply N.div_lt; lia.
  - cbn. apply andb_True. split; [|done].
    unfold pretty_N_char. by repeat case_match.
Qed.

Lemma numeral_show_int z : numeral (show_int z).
Proof.
  unfold show_int, pretty, pretty_Z.
  destruct z as [|x|x]; [done|..]; unfold pretty, pretty_positive, pretty, pretty_N.
  - case_decide; [done|]. by apply numeral_pretty_N_go.
  - cbn [String.append numeral]. apply andb_True. split; [done|].
    case_decide; [done|]. by apply numeral_pretty_N_go.
Qed.

(** A numeral ends where the first character that is no digit stands. *)
Lemma numeral_split s1 s2 c1 c2 r1 r2 :
  numeral s1 → numeral s2 →
  numeral_char c1 = false → numeral_char c2 = false →
  s1 +:+ String c1 r1 = s2 +:+ String c2 r2 →
  s1 = s2 ∧ c1 = c2 ∧ r1 = r2.
Proof.
  revert s2. induction s1 as [|d1 s1 IH]; intros [|d2 s2]; cbn;
    intros H1 H2 Hc1 Hc2 Heq.
  - by injection Heq as -> ->.
  - injection Heq as -> _. apply andb_True in H2 as [H2 _].
    rewrite Hc1 in H2. done.
  - injection Heq as -> _. apply andb_True in H1 as [H1 _].
    rewrite Hc2 in H1. done.
  - injection Heq as -> Heq. apply andb_True in H1 as [_ H1].
    apply andb_True in H2 as [_ H2].
    destruct (IH _ H1 H2 Hc1 Hc2 Heq) as (-> & -> & ->). done.
Qed.

Lemma show_int_split x1 x2 c1 c2 r1 r2 :
  numeral_char c1 = false → numeral_char c2 = false →
  show_int x1 +:+ String c1 r1 = show_int x2 +:+ String c2 r2 →
  x1 = x2 ∧ c1 = c2 ∧ r1 = r2.
Proof.
  intros Hc1 Hc2 Heq.
  destruct (numeral_split _ _ _ _ _ _ (numeral_show_int x1) (numeral_show_int x2)
              Hc1 Hc2 Heq) as (Hx & -> & ->).
  split; [|done]. by apply (inj pretty).
Qed.

Ltac split_numeral H :=
  cbn -[show_int] in H;
  apply show_int_split in H as (-> & _ & H); [|done..].

(** X1.  [render] tells the elements apart: two elements with the same line
    are the same element, of the same class and with the same coordinates. *)
Theorem render_inj e1 e2 : render e1 = render e2 → e1 = e2.
Proof.
  destruct e1, e2; unfold render; cbn -[show_int]; intros H; try discriminate.
  - simplify_eq. split_numeral H. simplify_eq. split_numeral H. done.
  - simplify_eq. split_numeral H. simplify_eq. split_numeral H.
    simplify_eq. split_numeral H. simplify_eq. split_numeral H. done.
  - simplify_eq. split_numeral H. simplify_eq. split_numeral H.
    simplify_eq. split_numeral H. simplify_eq. split_numeral H. done.
Qed.

(** ** Rendering: when it is defined *)

Lemma for_each_add_element_ptr m o ptrs us ps :
  for_each add_element_ptr ps (State m o (MkDrawing ptrs us))
  = Done (tt, State m o (MkDrawing (ptrs ++ ps) us)).
Proof.
  revert ptrs. induction ps as [|p ps IH]; intros ptrs.
  - cbn. by rewrite app_nil_r.
  - rewrite for_each_cons.
    assert (add_element_ptr p (State m o (MkDrawing ptrs us))
            = Done (tt, State m o (MkDrawing (ptrs ++ [p]) us))) as -> by done.
    rewrite IH. by rewrite <-app_assoc.
Qed.

Lemma render_ptrs_lines m o ptrs us lines :
  mapM (ptr_line m) ptrs = Some lines →
  render_ptrs (State m o (MkDrawing ptrs us))
  = Done (tt, State m
                (o ++ blank_line ::
                   (if decide (ptrs = []) then [empty_ptrs_message]
                    else ptrs_header (length ptrs) :: lines))
                (MkDrawing ptrs us)).
Proof.
  intros Hl. unfold render_ptrs. run. case_decide; cbn.
  - by rewrite <-app_assoc.
  - rewrite (for_each_render_ptr _ _ _ _ _ Hl). by rewrite <-!app_assoc.
Qed.

Lemma call_render_mem a s s' :
  call_render a s = Done (tt, s') → is_Some (mem s !! a) ∧ mem s' = mem s.
Proof.
  unfold call_render. destruct (mem s !! a) as [ob|]; [|done].
  intros [= <-]. split; [by eexists|done].
Qed.

Lemma for_each_render_ptr_done ptrs s s' :
  for_each render_ptr ptrs s = Done (tt, s') →
  ∀ a, Some a ∈ ptrs → is_Some (mem s !! a).
Proof.
  revert s. induction ptrs as [|p ptrs IH]; intros s Hrun a Hin.
  - by apply elem_of_nil in Hin.
  - rewrite for_each_cons in Hrun.
    destruct (render_ptr p s) as [[[] s1]|h] eqn:Hp; [|done].
    assert (mem s1 = mem s ∧ (p = Some a → is_Some (mem s !! a))) as [Hm Ha].
    { destruct p as [b|]; cbn in Hp.
      - apply call_render_mem in Hp as [? ?]. split; [done|]. by intros [= <-].
      - by injection Hp as <-. }
    apply elem_of_cons in Hin as [<-|Hin]; [by apply Ha|].
    rewrite <-Hm. by eapply IH.
Qed.

Lemma for_each_render_ptr_dangling ptrs s a :
  Some a ∈ ptrs → mem s !! a = None →
  for_each render_ptr ptrs s = Undefined DanglingDereference.
Proof.
  revert s. induction ptrs as [|p ptrs IH]; intros s Hin Ha.
  - by apply elem_of_nil in Hin.
  - rewrite for_each_cons.
    destruct (render_ptr p s) as [[[] s1]|h] eqn:Hp.
    + assert (mem s1 = mem s ∧ p ≠ Some a) as [Hm Hne].
      { destruct p as [b|]; cbn in Hp.
        - apply call_render_mem in Hp as [[ob Hb] ?]. split; [done|].
          intros [= ->]. by rewrite Ha in Hb.
        - by injection Hp as <-. }
      apply elem_of_cons in Hin as [?|Hin]; [done|].
      apply IH; [done|]. by rewrite Hm.
    + destruct p as [b|]; [|done]. cbn in Hp. unfold call_render in Hp.
      destruct (mem s !! b); [done|]. by injection Hp as <-.
Qed.

Lemma mapM_ptr_line_is_Some m ptrs :
  (∀ a, Some a ∈ ptrs → is_Some (m !! a)) → is_Some (mapM (ptr_line m) ptrs).
Proof.
  intros Hlive. apply mapM_is_Some, Forall_forall. intros [a|] Hin; [|by eexists].
  destruct (Hlive a Hin) as [ob Hob]. cbn. rewrite Hob. by eexists.
Qed.

(** X2.  Pointers added with [add_element_ptr] to an empty vector, null or to
    live objects: [render_ptrs] writes the message for the empty vector when
    none was added, and otherwise its header with their number and one line
    per pointer in the order of the adds, the notice for a null pointer and
    the element's line for the others.  The objects are not touched. *)
Theorem render_ptrs_insertion_order s ps lines :
  _drawing_ptrs (this s) = [] →
  mapM (ptr_line (mem s)) ps = Some lines →
  exec (for_each add_element_ptr ps ;; render_ptrs) s
  = Done (State (mem s)
            (cout s ++ blank_line ::
               (if decide (ps = []) then ["Collection of pointers is empty"]
                else ptrs_header (length ps) :: lines))
            (MkDrawing ps (_drawing_u_ptrs (this s))))
  ∧ length lines = length ps.
Proof.
  intros Hempty Hl. split.
  - destruct s as [m o [ptrs us]]; cbn in *; subst ptrs.
    unfold exec, mbind, M_bind. rewrite for_each_add_element_ptr. cbn [app].
    by rewrite (render_ptrs_lines _ _ _ _ _ Hl).
  - apply mapM_Some in Hl. symmetry. by eapply Forall2_length.
Qed.

(** X3.  [render_ptrs] finishes exactly when every pointer in the vector
    that is not null points to a live object; a pointer to an object that is
    gone makes it undefined. *)
Theorem render_ptrs_defined_iff s :
  ((∃ s', exec render_ptrs s = Done s')
   ↔ ∀ a, Some a ∈ _drawing_ptrs (this s) → is_Some (mem s !! a))
  ∧ (exec render_ptrs s = Undefined DanglingDereference
     ↔ ∃ a, Some a ∈ _drawing_ptrs (this s) ∧ mem s !! a = None).
Proof.
  destruct s as [m o [ptrs us]]; cbn.
  assert ((∃ a, Some a ∈ ptrs ∧ m !! a = None) →
          exec render_ptrs (State m o (MkDrawing ptrs us))
          = Undefined DanglingDereference) as Hbad.
  { intros (a & Hin & Ha). unfold exec, render_ptrs. run.
    rewrite decide_False by (intros ->; by apply elem_of_nil in Hin). cbn.
    by rewrite (for_each_render_ptr_dangling _ _ a). }
  assert ((∀ a, Some a ∈ ptrs → is_Some (m !! a)) →
          ∃ s', exec render_ptrs (State m o (MkDrawing ptrs us)) = Done s')
    as Hgood.
  { intros [lines Hl]%mapM_ptr_line_is_Some. unfold exec.
    rewrite (render_ptrs_lines _ _ _ _ _ Hl). by eexists. }
  split_and!; split; [|done| |done].
  - intros [s' Hrun] a Hin. destruct (m !! a) as [ob|] eqn:Ha; [by eexists|].
    rewrite Hbad in Hrun by eauto. done.
  - intros Hrun.
    destruct (decide (Forall (λ p, is_Some (ptr_line m p)) ptrs)) as [Hall|Hex].
    + apply mapM_is_Some in Hall as [lines Hl]. unfold exec in Hrun.
      by rewrite (render_ptrs_lines _ _ _ _ _ Hl) in Hrun.
    + apply not_Forall_Exists in Hex; [|apply _].
      apply Exists_exists in Hex as ([a|] & Hin & Hnone).
      * exists a. split; [done|]. cbn in Hnone.
        destruct (m !! a); [|done]. destruct Hnone. by eexists.
      * destruct Hnone. by eexists.
Qed.

Lemma for_each_arrow_render_done hs s s' :
  for_each arrow_render hs s = Done (tt, s') →
  ∀ h, h ∈ hs → is_Some (referent (mem s) h).
Proof.
  revert s. induction hs as [|h0 hs IH]; intros s Hrun h Hin.
  - by apply elem_of_nil in Hin.
  - rewrite for_each_cons in Hrun.
    destruct (arrow_render h0 s) as [[[] s1]|hz] eqn:Hp; [|done].
    destruct h0 as [b|]; [|done]. cbn in Hp.
    apply call_render_mem in Hp as [[ob Hb] Hm].
    apply elem_of_cons in Hin as [->|Hin].
    + cbn. rewrite Hb. by eexists.
    + rewrite <-Hm. by eapply IH.
Qed.

(** X4.  [render_u_ptrs] finishes exactly when every unique pointer in the
    vector holds a live object; there is no provision for a null one. *)
Theorem render_u_ptrs_defined_iff s :
  (∃ s', exec render_u_ptrs s = Done s')
  ↔ ∀ h, h ∈ _drawing_u_ptrs (this s) → is_Some (referent (mem s) h).
Proof.
  destruct s as [m o [ptrs us]]; cbn. split.
  - intros [s' Hrun]. unfold exec, render_u_ptrs in Hrun. run.
    destruct (for_each arrow_render us _) as [[[] s1]|h] eqn:Hloop; [|done].
    exact (for_each_arrow_render_done _ _ _ Hloop).
  - intros Hall. assert (is_Some (mapM (referent m) us)) as [es Hes].
    { by apply mapM_is_Some, Forall_forall. }
    unfold exec. rewrite (render_u_ptrs_owned _ _ _ _ _ Hes). by eexists.
Qed.

(** ** The destructor *)

Lemma for_each_delete_ptr_hazard l s h :
  for_each delete_ptr l s = Undefined h → h = InvalidDelete.
Proof.
  rewrite for_each_delete_ptr_outcome. case_decide; [done|]. by intros [= <-].
Qed.

Lemma destroy_Drawing_outcome m o ptrs us :
  destroy_Drawing (State m o (MkDrawing ptrs us))
  = if decide (targets (ptrs ++ us) = [])
    then Done (tt, State m (o ++ [blank_line; "* Deleting pointers"])
                     (MkDrawing [] []))
    else Undefined InvalidDelete.
Proof.
  unfold destroy_Drawing, mbind, M_bind. rewrite clear_drawing_ptrs_outcome.
  unfold targets. rewrite omap_app. cbn [_drawing_ptrs _drawing_u_ptrs].
  destruct (decide (omap id ptrs = [])) as [->|Hptrs].
  - rewrite clear_u_ptrs_outcome. cbn. unfold targets. by case_decide.
  - rewrite decide_False; [done|]. by intros [? _]%app_eq_nil.
Qed.

(** X6.  The destructor of a [Drawing] finishes when both vectors hold null
    pointers only, and then it writes the two lines of [clear_drawing_ptrs]
    and touches no object.  With any other pointer in one of the vectors it
    is undefined: the pointer is deleted as a [DrawingElement*]. *)
Theorem destroy_Drawing_finishes_on_nulls s :
  exec destroy_Drawing s
  = if decide (targets (_drawing_ptrs (this s) ++ _drawing_u_ptrs (this s)) = [])
    then Done (State (mem s) (cout s ++ [blank_line; "* Deleting pointers"])
                 (MkDrawing [] []))
    else Undefined InvalidDelete.
Proof.
  destruct s as [m o [ptrs us]]. unfold exec. rewrite destroy_Drawing_outcome.
  cbn [this mem cout _drawing_ptrs _drawing_u_ptrs]. by case_decide.
Qed.

(** X7.  The destructor is undefined, an invalid [delete], when a pointer in
    one of the vectors points to a local object or to no object, or when
    two of them point to the same object. *)
Theorem destroy_Drawing_undefined s :
  ¬ exclusive (mem s) (_drawing_ptrs (this s) ++ _drawing_u_ptrs (this s)) →
  exec destroy_Drawing s = Undefined InvalidDelete.
Proof.
  destruct s as [m o [ptrs us]]; cbn. intros Hnot.
  unfold exec. rewrite destroy_Drawing_outcome.
  rewrite decide_False; [done|]. intros Hl. by apply Hnot, targets_nil_exclusive.
Qed.

(** ** Objects that come and go *)

Lemma bind_done {A B} (c : M A) (f : A → M B) s a s' :
  c s = Done (a, s') → (c ≫= f) s = f a s'.
Proof. unfold mbind, M_bind. by intros ->. Qed.

(** The facts of an address not in use, in a memory with objects added. *)
Ltac fresh_facts :=
  repeat match goal with
         | H : <[_:=_]> _ !! _ = None |- _ =>
             apply lookup_insert_None in H as [H ?]
         end.

(** A lookup in a memory built by adding and removing objects: the layers
    are taken off one by one, by the facts at hand on the addresses, and by
    cases where there is none. *)
Ltac lookup_memory :=
  repeat first
    [ rewrite lookup_insert_eq
    | rewrite lookup_delete_eq
    | rewrite lookup_insert_ne by (done || congruence)
    | rewrite lookup_delete_ne by (done || congruence)
    | match goal with
      | |- context [delete ?k _ !! ?i] => destruct (decide (k = i)) as [->|?]
      | |- context [<[?k:=_]> _ !! ?i] => destruct (decide (k = i)) as [->|?]
      end ];
  first [done | congruence].

(** Two memories built from the same one by adding and removing objects. *)
Ltac same_memory := apply map_eq; intros ?; lookup_memory.

(** Addresses known to differ are a list without duplicates. *)
Ltac distinct_addrs :=
  repeat (apply NoDup_cons; split;
          [rewrite ?not_elem_of_cons; split_and?;
           first [done | congruence | apply not_elem_of_nil]|]);
  apply NoDup_nil_2.

(** The other way round. *)
Ltac split_distinct H :=
  repeat (let N := fresh "N" in
          apply NoDup_cons in H as [N H];
          rewrite ?not_elem_of_cons in N; destruct_and? N);
  clear H.

Section Program.

Context (alloc : memory → addr).
Hypothesis alloc_fresh : ∀ m : memory, m !! alloc m = None.

Lemma place_spec st e m o d :
  ∃ a, m !! a = None ∧
       place alloc st e (State m o d)
       = Done (a, State (<[a := Object st e]> m) o d).
Proof. exists (alloc m). by split. Qed.

Ltac place_step a Ha :=
  match goal with
  | |- context [(place alloc ?st ?e ≫= _) (State ?m ?o ?d)] =>
      let E := fresh "E" in
      destruct (place_spec st e m o d) as (a & Ha & E);
      rewrite (bind_done _ _ _ _ _ E); clear E; cbv beta
  end.

Lemma draw_spec m o d : draw alloc (State m o d) = Done (tt, State m o d).
Proof.
  unfold draw, local.
  place_step p Hp. place_step l Hl. place_step r Hr. fresh_facts.
  unfold mbind, M_bind, leave; cbn. do 2 f_equal. f_equal. same_memory.
Qed.

Lemma draw_ptrs_spec m o ptrs us :
  ∃ a b c,
    m !! a = None ∧ m !! b = None ∧ m !! c = None ∧ NoDup [a; b; c] ∧
    draw_ptrs alloc (State m o (MkDrawing ptrs us))
    = Done (tt, State (<[c := Object Dynamic (Rectangle 879 654 123 321)]>
                         (<[b := Object Dynamic (Line 88 98 456 987)]>
                            (<[a := Object Dynamic (Point 45 55)]> m)))
                  o (MkDrawing [Some a; Some b; Some c] us)).
Proof.
  unfold draw_ptrs, local, new.
  rewrite (bind_done _ _ _ tt (State m o (MkDrawing [] us))) by done.
  place_step p Hp. place_step l Hl. place_step r Hr.
  place_step a Ha.
  rewrite (bind_done (add_element_ptr _) _ _ tt
             (State (<[a:=Object Dynamic (Point 45 55)]> _) o
                (MkDrawing [Some a] us))) by done.
  place_step b Hb.
  rewrite (bind_done (add_element_ptr _) _ _ tt
             (State (<[b:=Object Dynamic (Line 88 98 456 987)]> _) o
                (MkDrawing [Some a; Some b] us))) by done.
  place_step c Hc.
  rewrite (bind_done (add_element_ptr _) _ _ tt
             (State (<[c:=Object Dynamic (Rectangle 879 654 123 321)]> _) o
                (MkDrawing [Some a; Some b; Some c] us))) by done.
  fresh_facts. exists a, b, c. split_and!; [done..| |].
  - distinct_addrs.
  - unfold mbind, M_bind, leave; cbn. do 2 f_equal. f_equal. same_memory.
Qed.

Lemma factory_spec e m o d :
  ∃ a, m !! a = None ∧
       (a ← new alloc e; mret (Some a)) (State m o d)
       = Done (Some a, State (<[a := Object Dynamic e]> m) o d).
Proof. exists (alloc m). by split. Qed.

Lemma emplace_back_temporary_spec h m o ptrs us :
  emplace_back_temporary h (State m o (MkDrawing ptrs us))
  = Done (tt, State m o (MkDrawing ptrs (us ++ [h]))).
Proof. done. Qed.

Lemma add_element_u_ptr_spec h m o ptrs us :
  add_element_u_ptr h (State m o (MkDrawing ptrs us))
  = Done (tt, State m o (MkDrawing ptrs (us ++ [h]))).
Proof. done. Qed.

Lemma add_element_ptr_spec p m o ptrs us :
  add_element_ptr p (State m o (MkDrawing ptrs us))
  = Done (tt, State m o (MkDrawing (ptrs ++ [p]) us)).
Proof. done. Qed.

Lemma leave_spec a m o d :
  leave a (State m o d) = Done (tt, State (delete a m) o d).
Proof. done. Qed.

Lemma call_render_live a st e m o d :
  m !! a = Some (Object st e) →
  call_render a (State m o d) = Done (tt, State m (o ++ [render e]) d).
Proof. intros Ha. unfold call_render; cbn. by rewrite Ha. Qed.

Lemma ptr_line_live a st e m :
  m !! a = Some (Object st e) → ptr_line m (Some a) = Some (render e).
Proof. intros Ha. cbn. by rewrite Ha. Qed.

Lemma referent_live a st e m :
  m !! a = Some (Object st e) → referent m (Some a) = Some e.
Proof. intros Ha. cbn. by rewrite Ha. Qed.

Lemma deletable_live a e m :
  m !! a = Some (Object Dynamic e) → deletable m (Some a).
Proof. intros Ha. cbn. by rewrite Ha. Qed.

Ltac factory_step a Ha :=
  match goal with
  | |- context [((place alloc Dynamic ?e ≫= λ x, mret (Some x)) ≫= _)
                  (State ?m ?o ?d)] =>
      let E := fresh "E" in
      destruct (factory_spec e m o d) as (a & Ha & E);
      rewrite (bind_done _ _ _ _ _ E); clear E; cbv beta
  end.

Tactic Notation "step_with" open_constr(E) :=
  rewrite (bind_done _ _ _ _ _ E); cbv beta; cbn [app].

(** What [draw_u_ptrs] does once its vector is cleared. *)
Lemma draw_u_ptrs_after_clear m o ptrs us m1 :
  clear_u_ptrs (State m o (MkDrawing ptrs us))
  = Done (tt, State m1 o (MkDrawing ptrs [])) →
  ∃ a b c d,
    m1 !! a = None ∧ m1 !! b = None ∧ m1 !! c = None ∧ m1 !! d = None ∧
    NoDup [a; b; c; d] ∧
    draw_u_ptrs alloc (State m o (MkDrawing ptrs us))
    = Done (tt, State (<[d := Object Dynamic (Rectangle 3 194 34 200)]>
                         (<[c := Object Dynamic (Line 55 122 234 556)]>
                            (<[b := Object Dynamic (Point 35 22)]>
                               (<[a := Object Dynamic (Point 10 15)]> m1))))
                  o (MkDrawing ptrs [Some a; Some b; Some c; Some d])).
Proof.
  intros Hclear.
  unfold draw_u_ptrs, getPointPtr, getLinePtr, getRectanglePtr, new.
  step_with Hclear.
  place_step a Ha. step_with (emplace_back_temporary_spec (Some a) _ _ _ _).
  factory_step b Hb. step_with (emplace_back_temporary_spec (Some b) _ _ _ _).
  factory_step c Hc. step_with (emplace_back_temporary_spec (Some c) _ _ _ _).
  factory_step d Hd. rewrite emplace_back_temporary_spec. cbn [app].
  fresh_facts. exists a, b, c, d. split_and!; [done..|distinct_addrs|done].
Qed.

(** [main] up to the destruction of [drawing], for whatever is to be shown of
    its outcome. *)
Lemma main_body_spec m o (P : outcome (unit * state) → Prop) :
  (∀ a b c d1 d2 d3 d4,
     NoDup [a; b; c; d1; d2; d3; d4] →
     Forall (λ x, m !! x = None) [a; b; c; d1; d2; d3; d4] →
     P (Done (tt, State
         (<[d4 := Object Dynamic (Rectangle 3 194 34 200)]>
            (<[d3 := Object Dynamic (Line 55 122 234 556)]>
               (<[d2 := Object Dynamic (Point 35 22)]>
                  (<[d1 := Object Dynamic (Point 10 15)]>
                     (<[c := Object Dynamic (Rectangle 879 654 123 321)]>
                        (<[b := Object Dynamic (Line 88 98 456 987)]>
                           (<[a := Object Dynamic (Point 45 55)]> m)))))))
         (o ++ ["Rendering a point (11, 12)";
                "Rendering a line from (22, 23) to (124, 125)";
                "Rendering a rectangle of dimension 234x75, from (33, 34)";
                blank_line; "Rendering 3 elements from pointers";
                "Rendering a point (11, 12)";
                "Rendering a line from (22, 23) to (124, 125)";
                "Rendering a rectangle of dimension 234x75, from (33, 34)";
                blank_line; "Rendering 3 elements from pointers";
                "Rendering a point (45, 55)";
                "Rendering a line from (88, 98) to (456, 987)";
                "Rendering a rectangle of dimension 123x321, from (879, 654)";
                blank_line; "Rendering 4 elements from unique pointers";
                "Rendering a point (10, 15)"; "Rendering a point (35, 22)";
                "Rendering a line from (55, 122) to (234, 556)";
                "Rendering a rectangle of dimension 34x200, from (3, 194)"])
         (MkDrawing [Some a; Some b; Some c]
            [Some d1; Some d2; Some d3; Some d4])))) →
  P (main_body alloc (State m o (MkDrawing [] []))).
Proof.
  intros HP. unfold main_body, local.
  place_step p Hp. place_step l Hl. place_step r Hr. fresh_facts.
  set (m3 := <[r:=_]> _).
  assert (m3 !! p = Some (Object Automatic (Point 11 12))) as Lp
    by (subst m3; lookup_memory).
  assert (m3 !! l = Some (Object Automatic (Line 22 23 124 125))) as Ll
    by (subst m3; lookup_memory).
  assert (m3 !! r = Some (Object Automatic (Rectangle 33 34 234 75))) as Lr
    by (subst m3; lookup_memory).
  step_with (call_render_live p _ _ _ _ _ Lp).
  step_with (call_render_live l _ _ _ _ _ Ll).
  step_with (call_render_live r _ _ _ _ _ Lr).
  step_with (add_element_ptr_spec (Some p) _ _ _ _).
  step_with (add_element_ptr_spec (Some l) _ _ _ _).
  step_with (add_element_ptr_spec (Some r) _ _ _ _).
  assert (mapM (ptr_line m3) [Some p; Some l; Some r]
          = Some [render (Point 11 12); render (Line 22 23 124 125);
                  render (Rectangle 33 34 234 75)]) as Hlines3.
  { apply mapM_Some. repeat constructor; by eapply ptr_line_live. }
  step_with (render_ptrs_lines _ _ _ _ _ Hlines3).
  rewrite decide_False by done. clear Lp Ll Lr Hlines3.
  (* draw_ptrs *)
  match goal with
  | |- context [(draw_ptrs alloc ≫= _) (State ?mm ?oo (MkDrawing ?pp ?uu))] =>
      destruct (draw_ptrs_spec mm oo pp uu)
        as (a & b & c & Ha & Hb & Hc & Hn3 & Hdraw)
  end.
  step_with Hdraw. clear Hdraw. unfold m3 in Ha, Hb, Hc. fresh_facts.
  split_distinct Hn3.
  set (m6 := <[c:=_]> _).
  assert (mapM (ptr_line m6) [Some a; Some b; Some c]
          = Some [render (Point 45 55); render (Line 88 98 456 987);
                  render (Rectangle 879 654 123 321)]) as Hlines6.
  { apply mapM_Some. repeat constructor; eapply ptr_line_live;
      subst m6 m3; lookup_memory. }
  step_with (render_ptrs_lines _ _ _ _ _ Hlines6).
  rewrite decide_False by done. clear Hlines6.
  (* draw_u_ptrs *)
  match goal with
  | |- context [(draw_u_ptrs alloc ≫= _) (State ?mm ?oo (MkDrawing ?pp []))] =>
      destruct (draw_u_ptrs_after_clear mm oo pp [] mm
                  (clear_u_ptrs_empty mm oo pp))
        as (d1 & d2 & d3 & d4 & Hd1 & Hd2 & Hd3 & Hd4 & Hn4 & Hdraw)
  end.
  step_with Hdraw. clear Hdraw. unfold m6, m3 in Hd1, Hd2, Hd3, Hd4. fresh_facts.
  split_distinct Hn4.
  set (m10 := <[d4:=_]> _).
  assert (mapM (referent m10) [Some d1; Some d2; Some d3; Some d4]
          = Some [Point 10 15; Point 35 22; Line 55 122 234 556;
                  Rectangle 3 194 34 200]) as Hes.
  { apply mapM_Some. repeat constructor; eapply referent_live;
      subst m10 m6 m3; lookup_memory. }
  step_with (render_u_ptrs_owned _ _ _ _ _ Hes). clear Hes.
  step_with (leave_spec r _ _ _).
  step_with (leave_spec l _ _ _).
  rewrite leave_spec.
  (* what is left *)
  match goal with
  | |- P (Done (tt, State ?mm _ _)) =>
      assert (mm = <[d4 := Object Dynamic (Rectangle 3 194 34 200)]>
            (<[d3 := Object Dynamic (Line 55 122 234 556)]>
               (<[d2 := Object Dynamic (Point 35 22)]>
                  (<[d1 := Object Dynamic (Point 10 15)]>
                     (<[c := Object Dynamic (Rectangle 879 654 123 321)]>
                        (<[b := Object Dynamic (Line 88 98 456 987)]>
                           (<[a := Object Dynamic (Point 45 55)]> m)))))))
        as -> by (subst m10 m6 m3; same_memory)
  end.
  rewrite <-!app_assoc. apply HP.
  - distinct_addrs.
  - repeat constructor; done.
Qed.

(** X12.  The program: whatever addresses allocation hands out, and
    whatever objects there are before, [main] gets through its statements,
    with nineteen lines written and seven objects made by [new] in the two
    vectors of [drawing], and is undefined when it returns: the destructor of
    [drawing] deletes these objects through [DrawingElement*]. *)
Theorem main_undefined_at_exit m o :
  (∃ a b c d1 d2 d3 d4,
     NoDup [a; b; c; d1; d2; d3; d4] ∧
     Forall (λ x, m !! x = None) [a; b; c; d1; d2; d3; d4] ∧
     exec (main_body alloc) (State m o (MkDrawing [] []))
     = Done (State
         (<[d4 := Object Dynamic (Rectangle 3 194 34 200)]>
            (<[d3 := Object Dynamic (Line 55 122 234 556)]>
               (<[d2 := Object Dynamic (Point 35 22)]>
                  (<[d1 := Object Dynamic (Point 10 15)]>
                     (<[c := Object Dynamic (Rectangle 879 654 123 321)]>
                        (<[b := Object Dynamic (Line 88 98 456 987)]>
                           (<[a := Object Dynamic (Point 45 55)]> m)))))))
         (o ++ ["Rendering a point (11, 12)";
                "Rendering a line from (22, 23) to (124, 125)";
                "Rendering a rectangle of dimension 234x75, from (33, 34)";
                blank_line; "Rendering 3 elements from pointers";
                "Rendering a point (11, 12)";
                "Rendering a line from (22, 23) to (124, 125)";
                "Rendering a rectangle of dimension 234x75, from (33, 34)";
                blank_line; "Rendering 3 elements from pointers";
                "Rendering a point (45, 55)";
                "Rendering a line from (88, 98) to (456, 987)";
                "Rendering a rectangle of dimension 123x321, from (879, 654)";
                blank_line; "Rendering 4 elements from unique pointers";
                "Rendering a point (10, 15)"; "Rendering a point (35, 22)";
                "Rendering a line from (55, 122) to (234, 556)";
                "Rendering a rectangle of dimension 34x200, from (3, 194)"])
         (MkDrawing [Some a; Some b; Some c]
            [Some d1; Some d2; Some d3; Some d4])))
  ∧ exec (main alloc) (State m o (MkDrawing [] [])) = Undefined InvalidDelete.
Proof.
  split.
  - unfold exec. apply main_body_spec. intros a b c d1 d2 d3 d4 Hn Hf.
    by exists a, b, c, d1, d2, d3, d4.
  - unfold exec, main, mbind, M_bind. apply main_body_spec.
    intros a b c d1 d2 d3 d4 _ _. by rewrite destroy_Drawing_outcome.
Qed.

(** X8.  [draw_ptrs] makes three objects with [new], a point (45,55), a line
    (88,98,456,987) and a rectangle (879,654,123,321), and leaves the vector
    of raw pointers holding pointers to them and nothing else.  It deletes
    nothing: every object there was before is still there, also those the
    vector pointed to, and its three locals are gone. *)
Theorem draw_ptrs_replaces s :
  ∃ a b c,
    mem s !! a = None ∧ mem s !! b = None ∧ mem s !! c = None ∧
    NoDup [a; b; c] ∧
    exec (draw_ptrs alloc) s
    = Done (State (<[c := Object Dynamic (Rectangle 879 654 123 321)]>
                     (<[b := Object Dynamic (Line 88 98 456 987)]>
                        (<[a := Object Dynamic (Point 45 55)]> (mem s))))
              (cout s)
              (MkDrawing [Some a; Some b; Some c] (_drawing_u_ptrs (this s)))).
Proof.
  destruct s as [m o [ptrs us]]; cbn.
  destruct (draw_ptrs_spec m o ptrs us) as (a & b & c & ? & ? & ? & ? & Hrun).
  exists a, b, c. split_and!; [done..|]. unfold exec. by rewrite Hrun.
Qed.


(** X10.  [draw] adds nothing to the drawing: its three locals are gone when
    it returns, and the state is the one it started from. *)
Theorem draw_no_effect s : exec (draw alloc) s = Done s.
Proof. destruct s as [m o d]. unfold exec. by rewrite draw_spec. Qed.

(** X11.  A handle from a factory function added with [add_element_u_ptr]:
    the vector of unique pointers owns one element more, the new one at the
    end, it is still exclusive, and the objects there were are untouched. *)
Theorem factory_add_keeps_owned m o ptrs us es :
  owns m us es →
  (∀ x y, ∃ m' h,
      exec (h ← getPointPtr alloc x y; add_element_u_ptr h)
        (State m o (MkDrawing ptrs us))
      = Done (State m' o (MkDrawing ptrs (us ++ [h])))
      ∧ owns m' (us ++ [h]) (es ++ [Point x y]) ∧ m ⊆ m')
  ∧ (∀ x1 y1 x2 y2, ∃ m' h,
      exec (h ← getLinePtr alloc x1 y1 x2 y2; add_element_u_ptr h)
        (State m o (MkDrawing ptrs us))
      = Done (State m' o (MkDrawing ptrs (us ++ [h])))
      ∧ owns m' (us ++ [h]) (es ++ [Line x1 y1 x2 y2]) ∧ m ⊆ m')
  ∧ (∀ x y w h', ∃ m' h,
      exec (h ← getRectanglePtr alloc x y w h'; add_element_u_ptr h)
        (State m o (MkDrawing ptrs us))
      = Done (State m' o (MkDrawing ptrs (us ++ [h])))
      ∧ owns m' (us ++ [h]) (es ++ [Rectangle x y w h']) ∧ m ⊆ m').
Proof.
  intros Hown. split_and!; intros; eexists _, _;
    (split_and!; [reflexivity|by apply owns_snoc_new|by apply insert_subseteq]).
Qed.

(** X13.  [draw_u_ptrs] on a vector of unique pointers that holds null
    handles only, as that of a fresh [Drawing]: no object is touched, and
    the vector ends with the four new objects, a point (10,15), a point
    (35,22), a line (55,122,234,556) and a rectangle (3,194,34,200), where
    no object was.  On a vector that holds anything else it is undefined:
    its [clear()] deletes through [DrawingElement*]. *)
Theorem draw_u_ptrs_outcome s :
  (targets (_drawing_u_ptrs (this s)) = [] →
   ∃ a b c d,
     NoDup [a; b; c; d] ∧
     Forall (λ x, mem s !! x = None) [a; b; c; d] ∧
     exec (draw_u_ptrs alloc) s
     = Done (State (<[d := Object Dynamic (Rectangle 3 194 34 200)]>
                      (<[c := Object Dynamic (Line 55 122 234 556)]>
                         (<[b := Object Dynamic (Point 35 22)]>
                            (<[a := Object Dynamic (Point 10 15)]> (mem s)))))
               (cout s)
               (MkDrawing (_drawing_ptrs (this s))
                  [Some a; Some b; Some c; Some d])))
  ∧ (targets (_drawing_u_ptrs (this s)) ≠ [] →
     exec (draw_u_ptrs alloc) s = Undefined InvalidDelete).
Proof.
  destruct s as [m o [ptrs us]]; cbn. split; intros Hus.
  - assert (clear_u_ptrs (State m o (MkDrawing ptrs us))
            = Done (tt, State m o (MkDrawing ptrs []))) as Hclear.
    { rewrite clear_u_ptrs_outcome. by rewrite decide_True. }
    destruct (draw_u_ptrs_after_clear m o ptrs us m Hclear)
      as (a & b & c & d & ? & ? & ? & ? & ? & Hrun).
    exists a, b, c, d. split_and!; [done|by repeat constructor|].
    unfold exec. by rewrite Hrun.
  - unfold exec, draw_u_ptrs. unfold mbind at 1, M_bind at 1.
    rewrite clear_u_ptrs_outcome. by rewrite decide_False.
Qed.

(** X14.  On a vector of unique pointers that is not exclusive, two handles
    to one object or a handle to what no [new] made, [draw_u_ptrs] is
    undefined: its [clear()] deletes what may not be deleted. *)
Theorem draw_u_ptrs_undefined s :
  ¬ exclusive (mem s) (_drawing_u_ptrs (this s)) →
  exec (draw_u_ptrs alloc) s = Undefined InvalidDelete.
Proof.
  destruct s as [m o [ptrs us]]; cbn. intros Hnot.
  unfold exec, draw_u_ptrs. unfold mbind at 1, M_bind at 1.
  unfold clear_u_ptrs. run.
  change (for_each (λ h, delete_ptr h)) with (for_each delete_ptr).
  by rewrite for_each_delete_ptr_not_exclusive.
Qed.

End Program.

(** * The further properties on given states *)

Lemma render_inj_witness : Point 10 15 = Point 10 15.
Proof. apply (render_inj (Point 10 15) (Point 10 15)). reflexivity. Defined.

Lemma render_ptrs_insertion_order_witness :
  let s := State {[1%positive := Object Automatic (Point 11 12)]} []
             (MkDrawing [] []) in
  let ps := [Some 1%positive; nullptr] in
  let lines := [render (Point 11 12); null_pointer_notice] in
  exec (for_each add_element_ptr ps ;; render_ptrs) s
  = Done (State (mem s)
            (cout s ++ blank_line ::
               (if decide (ps = []) then ["Collection of pointers is empty"]
                else ptrs_header (length ps) :: lines))
            (MkDrawing ps (_drawing_u_ptrs (this s))))
  ∧ length lines = length ps.
Proof.
  intros s ps lines. apply (render_ptrs_insertion_order s ps lines); reflexivity.
Defined.

(** The [Drawing] of [main] before [draw_ptrs]: its raw pointers point to the
    three locals. *)
Lemma destroy_Drawing_undefined_witness :
  exec destroy_Drawing
    (State {[1%positive := Object Automatic (Point 11 12);
             2%positive := Object Automatic (Line 22 23 124 125);
             3%positive := Object Automatic (Rectangle 33 34 234 75)]} []
       (MkDrawing [Some 1%positive; Some 2%positive; Some 3%positive] []))
  = Undefined InvalidDelete.
Proof.
  apply destroy_Drawing_undefined.
  apply (bool_decide_unpack _). vm_compute. exact I.
Defined.

Lemma draw_ptrs_replaces_witness :
  ∃ a b c,
    mem init !! a = None ∧ mem init !! b = None ∧ mem init !! c = None ∧
    NoDup [a; b; c] ∧
    exec (draw_ptrs fresh_addr) init
    = Done (State (<[c := Object Dynamic (Rectangle 879 654 123 321)]>
                     (<[b := Object Dynamic (Line 88 98 456 987)]>
                        (<[a := Object Dynamic (Point 45 55)]> (mem init))))
              (cout init)
              (MkDrawing [Some a; Some b; Some c] (_drawing_u_ptrs (this init)))).
Proof. exact (draw_ptrs_replaces fresh_addr fresh_addr_fresh init). Defined.


Lemma draw_no_effect_witness : exec (draw fresh_addr) init = Done init.
Proof. exact (draw_no_effect fresh_addr fresh_addr_fresh init). Defined.

Lemma factory_add_keeps_owned_witness :
  let m : memory := {[1%positive := Object Dynamic (Point 10 15)]} in
  let us := [Some 1%positive] in
  let es := [Point 10 15] in
  (∀ x y, ∃ m' h,
      exec (h ← getPointPtr fresh_addr x y; add_element_u_ptr h)
        (State m [] (MkDrawing [] us))
      = Done (State m' [] (MkDrawing [] (us ++ [h])))
      ∧ owns m' (us ++ [h]) (es ++ [Point x y]) ∧ m ⊆ m')
  ∧ (∀ x1 y1 x2 y2, ∃ m' h,
      exec (h ← getLinePtr fresh_addr x1 y1 x2 y2; add_element_u_ptr h)
        (State m [] (MkDrawing [] us))
      = Done (State m' [] (MkDrawing [] (us ++ [h])))
      ∧ owns m' (us ++ [h]) (es ++ [Line x1 y1 x2 y2]) ∧ m ⊆ m')
  ∧ (∀ x y w h', ∃ m' h,
      exec (h ← getRectanglePtr fresh_addr x y w h'; add_element_u_ptr h)
        (State m [] (MkDrawing [] us))
      = Done (State m' [] (MkDrawing [] (us ++ [h])))
      ∧ owns m' (us ++ [h]) (es ++ [Rectangle x y w h']) ∧ m ⊆ m').
Proof.
  intros m us es.
  apply (factory_add_keeps_owned fresh_addr fresh_addr_fresh m [] [] us es).
  split; [|reflexivity]. apply (bool_decide_unpack _). vm_compute. exact I.
Defined.

Lemma main_undefined_at_exit_witness :
  (∃ a b c d1 d2 d3 d4,
     NoDup [a; b; c; d1; d2; d3; d4] ∧
     Forall (λ x, (∅ : memory) !! x = None) [a; b; c; d1; d2; d3; d4] ∧
     exec (main_body fresh_addr) (State ∅ [] (MkDrawing [] []))
     = Done (State
         (<[d4 := Object Dynamic (Rectangle 3 194 34 200)]>
            (<[d3 := Object Dynamic (Line 55 122 234 556)]>
               (<[d2 := Object Dynamic (Point 35 22)]>
                  (<[d1 := Object Dynamic (Point 10 15)]>
                     (<[c := Object Dynamic (Rectangle 879 654 123 321)]>
                        (<[b := Object Dynamic (Line 88 98 456 987)]>
                           (<[a := Object Dynamic (Point 45 55)]> ∅)))))))
         ([] ++ ["Rendering a point (11, 12)";
                 "Rendering a line from (22, 23) to (124, 125)";
                 "Rendering a rectangle of dimension 234x75, from (33, 34)";
                 blank_line; "Rendering 3 elements from pointers";
                 "Rendering a point (11, 12)";
                 "Rendering a line from (22, 23) to (124, 125)";
                 "Rendering a rectangle of dimension 234x75, from (33, 34)";
                 blank_line; "Rendering 3 elements from pointers";
                 "Rendering a point (45, 55)";
                 "Rendering a line from (88, 98) to (456, 987)";
                 "Rendering a rectangle of dimension 123x321, from (879, 654)";
                 blank_line; "Rendering 4 elements from unique pointers";
                 "Rendering a point (10, 15)"; "Rendering a point (35, 22)";
                 "Rendering a line from (55, 122) to (234, 556)";
                 "Rendering a rectangle of dimension 34x200, from (3, 194)"])
         (MkDrawing [Some a; Some b; Some c]
            [Some d1; Some d2; Some d3; Some d4])))
  ∧ exec (main fresh_addr) (State ∅ [] (MkDrawing [] []))
    = Undefined InvalidDelete.
Proof. exact (main_undefined_at_exit fresh_addr fresh_addr_fresh ∅ []). Defined.

(** X13 on a vector that holds a null handle, and on one that holds a handle
    to an object. *)
Lemma draw_u_ptrs_outcome_witness :
  let s := State {[1%positive := Object Dynamic (Point 1 2)]} []
             (MkDrawing [] [nullptr]) in
  let s2 := State {[1%positive := Object Dynamic (Point 1 2)]} []
              (MkDrawing [] [Some 1%positive]) in
  (∃ a b c d,
     NoDup [a; b; c; d] ∧
     Forall (λ x, mem s !! x = None) [a; b; c; d] ∧
     exec (draw_u_ptrs fresh_addr) s
     = Done (State (<[d := Object Dynamic (Rectangle 3 194 34 200)]>
                      (<[c := Object Dynamic (Line 55 122 234 556)]>
                         (<[b := Object Dynamic (Point 35 22)]>
                            (<[a := Object Dynamic (Point 10 15)]> (mem s)))))
               (cout s)
               (MkDrawing (_drawing_ptrs (this s))
                  [Some a; Some b; Some c; Some d])))
  ∧ exec (draw_u_ptrs fresh_addr) s2 = Undefined InvalidDelete.
Proof.
  intros s s2. split.
  - apply (draw_u_ptrs_outcome fresh_addr fresh_addr_fresh s). reflexivity.
  - apply (draw_u_ptrs_outcome fresh_addr fresh_addr_fresh s2). discriminate.
Defined.

(** Two unique pointers made from one raw pointer. *)
Lemma draw_u_ptrs_undefined_witness :
  exec (draw_u_ptrs fresh_addr)
    (State {[1%positive := Object Dynamic (Point 1 2)]} []
       (MkDrawing [] [Some 1%positive; Some 1%positive]))
  = Undefined InvalidDelete.
Proof.
  apply (draw_u_ptrs_undefined fresh_addr).
  apply (bool_decide_unpack _). vm_compute. exact I.
Defined.
